(** * GDP dashboard (src/app.py): loading, reshaping and growth metrics

    Shallow embedding of [get_gdp_data] (lines 18-61) and of the metrics
    loop (lines 120-151) of the Streamlit script.

    Numbers.  A pandas float cell is an IEEE-754 binary64 value, modelled by
    the [spec_float] of the Standard Library (53-bit mantissa, exponents up
    to 1024): NaN, signed zeros and infinities, and finite values; division
    rounds to nearest, ties to even, as float64 division does.  String
    formatting of floats ([f"{x:,.2f}x"], [f"{x:,.0f}B"]) is kept
    symbolic: the model records which number is formatted. *)

From Stdlib Require Import List String Ascii ZArith Bool Lia SpecFloat.
From Stdlib Require Import DecimalString DecimalZ DecimalPos Finite.
Import ListNotations.

Open Scope Z_scope.
Open Scope string_scope.

(** ** Values *)

(** A float64 value. *)
Definition num : Type := spec_float.

Abbreviation NaN := S754_nan.

Definition prec64 : Z := 53.
Definition emax64 : Z := 1024.

(** [x / y] on floats, rounded to nearest even. *)
Definition fdiv (x y : num) : num := SFdiv prec64 emax64 x y.

(** [x == y] on floats: NaN equals nothing, [0.0 == -0.0]. *)
Definition feqb (x y : num) : bool := SFeqb x y.

(** The float64 nearest to [m * 2 ^ e]. *)
Definition f64 (m e : Z) : num := binary_normalize prec64 emax64 m e false.

(** [float(z)] for an integer [z]. *)
Definition f64_of_Z (z : Z) : num := f64 z 0.

(** [math.isnan] *)
Definition isnan (x : num) : bool :=
  match x with NaN => true | _ => false end.

(** [x == 0] on a float. *)
Definition num_eq_zero (x : num) : bool := feqb x (S754_zero false).

(** A DataFrame cell: a float (possibly NaN) or a Python string
    (object column). *)
Inductive cell : Type :=
| CNum (x : num)
| CStr (s : string).

(** Elementwise [==] of pandas: NaN never compares equal, a string never
    equals a number. *)
Definition cell_eq (a b : cell) : bool :=
  match a, b with
  | CNum x, CNum y => feqb x y
  | CStr s, CStr t => String.eqb s t
  | _, _ => false
  end.

(** ** Exceptions and the error monad *)

Inductive error : Type :=
| KeyError (missing : list string)   (** column selection of absent labels *)
| ValueError                         (** [pd.to_numeric] on a non-number *)
| TypeError                          (** [str / float] *)
| ZeroDivisionError.                 (** [float / 0.0] *)

Inductive result (A : Type) : Type :=
| Ok (a : A)
| Err (e : error).
Arguments Ok {A} a.
Arguments Err {A} e.

Definition bind {A B} (m : result A) (k : A -> result B) : result B :=
  match m with Ok a => k a | Err e => Err e end.

Notation "x <- m ;; k" := (bind m (fun x => k))
  (at level 61, m at next level, right associativity).

Fixpoint mapM {A B} (f : A -> result B) (l : list A) : result (list B) :=
  match l with
  | [] => Ok []
  | a :: l' => b <- f a ;; bs <- mapM f l' ;; Ok (b :: bs)
  end.

(** ** [pd.read_csv(DATA_FILENAME, skiprows=4, na_values=['..'])]

    The file after the four skipped lines: a header row and data rows of
    lexical tokens.  A token is either a number literal (with the float64
    value pandas' parser reads from it, and its text) or any other text; an
    empty field is [TokText ""]. *)

Inductive token : Type :=
| TokNum (v : num) (text : string)
| TokText (s : string).

Record raw_csv : Type := {
  header : list string;
  data : list (list token)
}.

(** [na_values=['..']] extends pandas' default NA strings. *)
Definition na_values : list string := [".."].

Definition default_na_values : list string :=
  [""; "#N/A"; "#N/A N/A"; "#NA"; "-1.#IND"; "-1.#QNAN"; "-NaN"; "-nan";
   "1.#IND"; "1.#QNAN"; "<NA>"; "N/A"; "NA"; "NULL"; "NaN"; "None";
   "n/a"; "nan"; "null"].

Definition is_na (s : string) : bool :=
  existsb (String.eqb s) (na_values ++ default_na_values).

Definition tok_numeric (t : token) : bool :=
  match t with TokNum _ _ => true | TokText s => is_na s end.

(** Column of float64 dtype: NA tokens become NaN. *)
Definition convert_float (t : token) : cell :=
  match t with TokNum v _ => CNum v | TokText _ => CNum NaN end.

(** Column of object dtype: NA tokens become NaN, everything else stays
    the string it was read as. *)
Definition convert_object (t : token) : cell :=
  match t with
  | TokNum _ s => CStr s
  | TokText s => if is_na s then CNum NaN else CStr s
  end.

(** dtype inference per column: float64 when every token is a number or an
    NA marker, object otherwise. *)
Definition parse_column (ts : list token) : list cell :=
  if forallb tok_numeric ts then map convert_float ts
  else map convert_object ts.

(** A DataFrame: its number of rows and its labelled columns, each column
    listing its cells in row order. *)
Record frame : Type := {
  nrows : nat;
  columns : list (string * list cell)
}.

(** Missing trailing fields of a row are read as empty (NA). *)
Definition field (j : nat) (row : list token) : token :=
  nth j row (TokText "").

Definition read_csv (raw : raw_csv) : frame :=
  {| nrows := List.length (data raw);
     columns :=
       map (fun '(j, name) => (name, parse_column (map (field j) (data raw))))
           (combine (seq 0 (List.length (header raw))) (header raw)) |}.

(** ** Column access *)

Fixpoint lookup_col (cols : list (string * list cell)) (c : string)
  : option (list cell) :=
  match cols with
  | [] => None
  | (n, v) :: cols' => if String.eqb n c then Some v else lookup_col cols' c
  end.

Definition has_col (cols : list (string * list cell)) (c : string) : bool :=
  match lookup_col cols c with Some _ => true | None => false end.

(** The cells of column [c] ([[]] when there is no such column). *)
Definition column (df : frame) (c : string) : list cell :=
  match lookup_col (columns df) c with Some v => v | None => [] end.

(** [df[names]]: raises [KeyError] listing every absent label; otherwise a
    frame with exactly the requested columns in the requested order. *)
Definition select (df : frame) (names : list string) : result frame :=
  match filter (fun n => negb (has_col (columns df) n)) names with
  | [] =>
      Ok {| nrows := nrows df;
            columns := map (fun n => (n, column df n)) names |}
  | missing => Err (KeyError missing)
  end.

(** ** [melt] and [pd.to_numeric] *)

(** A row of the melted frame, before the [Year] column is converted. *)
Record melted_row : Type := {
  mr_name : cell;
  mr_code : cell;
  mr_year : string;
  mr_gdp : cell
}.

(** A row of [gdp_df]: [Country Name], [Country Code], [Year], [GDP]. *)
Record long_row : Type := {
  country_name : cell;
  country_code : cell;
  year : Z;
  gdp : cell
}.

Definition col_or_error (df : frame) (c : string) : result (list cell) :=
  match lookup_col (columns df) c with
  | Some v => Ok v
  | None => Err (KeyError [c])
  end.

(** [df.melt(id_vars=[id1, id2], value_vars=vvars, var_name='Year',
    value_name='GDP')]: the value columns are stacked one after the
    other, each contributing one row per row of [df]. *)
Definition melt (df : frame) (id1 id2 : string) (vvars : list string)
  : result (list melted_row) :=
  names <- col_or_error df id1 ;;
  codes <- col_or_error df id2 ;;
  blocks <- mapM (fun v =>
                    vals <- col_or_error df v ;;
                    Ok (map (fun '((n, c), x) =>
                               {| mr_name := n; mr_code := c;
                                  mr_year := v; mr_gdp := x |})
                            (combine (combine names codes) vals)))
                 vvars ;;
  Ok (List.concat blocks).

(** [str(y)] for an int. *)
Definition str_Z (y : Z) : string := NilZero.string_of_int (Z.to_int y).

(** [pd.to_numeric] on one integer label. *)
Definition to_numeric (s : string) : option Z :=
  option_map Z.of_int (NilZero.int_of_string s).

(** [gdp_df['Year'] = pd.to_numeric(gdp_df['Year'])]: [ValueError] if a
    label does not parse. *)
Definition convert_year (rows : list melted_row) : result (list long_row) :=
  mapM (fun r =>
          match to_numeric (mr_year r) with
          | Some y => Ok {| country_name := mr_name r; country_code := mr_code r;
                            year := y; gdp := mr_gdp r |}
          | None => Err ValueError
          end) rows.

(** ** [get_gdp_data] *)

(** [range(lo, hi + 1)] *)
Definition zrange (lo hi : Z) : list Z :=
  map (fun k => lo + Z.of_nat k) (seq 0 (Z.to_nat (hi - lo + 1))).

(** [year_cols = [str(y) for y in range(MIN_YEAR, MAX_YEAR + 1)]] *)
Definition year_cols (lo hi : Z) : list string := map str_Z (zrange lo hi).

(** [['Country Name', 'Country Code'] + year_cols] *)
Definition required_columns (lo hi : Z) : list string :=
  ["Country Name"; "Country Code"] ++ year_cols lo hi.

(** The body of [get_gdp_data] with [MIN_YEAR] and [MAX_YEAR] as
    parameters. *)
Definition get_gdp_data_range (raw : raw_csv) (lo hi : Z)
  : result (list long_row) :=
  let raw_gdp_df := read_csv raw in
  let ycols := year_cols lo hi in
  raw_gdp_df <- select raw_gdp_df (required_columns lo hi) ;;
  gdp_df <- melt raw_gdp_df "Country Name" "Country Code" ycols ;;
  convert_year gdp_df.

Definition MIN_YEAR : Z := 1960.
Definition MAX_YEAR : Z := 2024.

Definition get_gdp_data (raw : raw_csv) : result (list long_row) :=
  get_gdp_data_range raw MIN_YEAR MAX_YEAR.

(** ** The metrics loop *)

(** [gdp_df[gdp_df['Year'] == y]] *)
Definition year_df (gdp_df : list long_row) (y : Z) : list long_row :=
  filter (fun r => Z.eqb (year r) y) gdp_df.

(** [.iat[0]]: [None] stands for the [IndexError] of an empty series. *)
Definition iat0 {A} (l : list A) : option A := hd_error l.

(** [df[df['Country Code'] == country]['GDP'].iat[0]] *)
Definition lookup_gdp (df : list long_row) (country : cell) : option cell :=
  iat0 (map gdp (filter (fun r => cell_eq (country_code r) country) df)).

Definition f64_1e9 : num := f64_of_Z 1000000000.

(** [x / 1e9] on a cell. *)
Definition billions (c : cell) : result num :=
  match c with
  | CNum x => Ok (fdiv x f64_1e9)
  | CStr _ => Err TypeError
  end.

(** [try: v = lookup / 1e9  except IndexError: v = float('nan')] *)
Definition gdp_in_billions (df : list long_row) (country : cell) : result num :=
  match lookup_gdp df country with
  | None => Ok NaN
  | Some c => billions c
  end.

(** Python float division: a divisor [== 0] raises. *)
Definition num_div (a b : num) : result num :=
  if num_eq_zero b then Err ZeroDivisionError else Ok (fdiv a b).

(** The [delta] of [st.metric]: the literal ['n/a'] (delta_color 'off') or
    [f"{ratio:,.2f}x"] of the given ratio (delta_color 'normal'). *)
Inductive growth : Type :=
| GrowthNA
| GrowthFmt (ratio : num).

(** One rendered [st.metric]: the country, [first_gdp], [last_gdp], the
    displayed value ([None] for ['n/a'], otherwise [f"{last_gdp:,.0f}B"])
    and the growth delta. *)
Record metric : Type := {
  m_country : cell;
  m_first : num;
  m_last : num;
  m_value : option num;
  m_growth : growth
}.

Definition metric_for (first_year_df last_year_df : list long_row)
    (country : cell) : result metric :=
  first_gdp <- gdp_in_billions first_year_df country ;;
  last_gdp <- gdp_in_billions last_year_df country ;;
  g <- (if isnan first_gdp || num_eq_zero first_gdp then Ok GrowthNA
        else r <- num_div last_gdp first_gdp ;; Ok (GrowthFmt r)) ;;
  Ok {| m_country := country; m_first := first_gdp; m_last := last_gdp;
        m_value := if isnan last_gdp then None else Some last_gdp;
        m_growth := g |}.

(** Lines 120-151: [for i, country in enumerate(selected_countries)]. *)
Definition compute_metrics (gdp_df : list long_row) (selected_countries : list cell)
    (from_year to_year : Z) : result (list metric) :=
  let first_year_df := year_df gdp_df from_year in
  let last_year_df := year_df gdp_df to_year in
  mapM (metric_for first_year_df last_year_df) selected_countries.

(** ** Sidebar filters (lines 68-94) *)

(** [int(series.min())]: the minimum of an empty series is NaN, and
    [int(float('nan'))] raises [ValueError]. *)
Definition series_min (ys : list Z) : result Z :=
  match ys with
  | [] => Err ValueError
  | y :: ys' => Ok (fold_left Z.min ys' y)
  end.

(** [int(series.max())] *)
Definition series_max (ys : list Z) : result Z :=
  match ys with
  | [] => Err ValueError
  | y :: ys' => Ok (fold_left Z.max ys' y)
  end.

(** [min_year = int(gdp_df['Year'].min())],
    [max_year = int(gdp_df['Year'].max())]: the bounds of the slider. *)
Definition year_bounds (gdp_df : list long_row) : result (Z * Z) :=
  min_year <- series_min (map year gdp_df) ;;
  max_year <- series_max (map year gdp_df) ;;
  Ok (min_year, max_year).

(** Equality of the hash tables behind [unique] and [isin]: unlike [==],
    NaN matches NaN ([0.0] and [-0.0] match, as under [==]). *)
Definition cell_same (a b : cell) : bool :=
  match a, b with
  | CNum x, CNum y => (isnan x && isnan y) || feqb x y
  | CStr s, CStr t => String.eqb s t
  | _, _ => false
  end.

(** [Series.unique()]: first occurrences, in order of appearance. *)
Fixpoint unique_go (seen : list cell) (l : list cell) : list cell :=
  match l with
  | [] => []
  | x :: l' =>
      if existsb (cell_same x) seen then unique_go seen l'
      else x :: unique_go (x :: seen) l'
  end.

Definition unique (l : list cell) : list cell := unique_go [] l.

(** [countries = gdp_df['Country Code'].unique()]: the multiselect options. *)
Definition countries (gdp_df : list long_row) : list cell :=
  unique (map country_code gdp_df).

(** [Series.isin(values)] on one cell. *)
Definition isin (x : cell) (values : list cell) : bool :=
  existsb (cell_same x) values.

(** [filtered_gdp_df]: rows of a selected country with
    [from_year <= Year <= to_year]. *)
Definition filtered_gdp_df (gdp_df : list long_row) (selected_countries : list cell)
    (from_year to_year : Z) : list long_row :=
  filter (fun r => isin (country_code r) selected_countries &&
                   Z.leb from_year (year r) && Z.leb (year r) to_year) gdp_df.

(** ** The chart (lines 100-114) *)

(** [st.warning(...)] when the filtered frame is empty, otherwise the line
    chart of its rows. *)
Inductive chart : Type :=
| ChartWarning
| ChartLines (rows : list long_row).

Definition gdp_chart (filtered : list long_row) : chart :=
  match filtered with
  | [] => ChartWarning
  | _ => ChartLines filtered
  end.

(** ** The long table described row by row

    What [get_gdp_data_range] computes, written without [melt]: for each
    year of the range in turn, one row per row [i] of the read frame. *)
Definition long_row_at (df : frame) (y : Z) (i : nat) : long_row :=
  {| country_name := nth i (column df "Country Name") (CNum NaN);
     country_code := nth i (column df "Country Code") (CNum NaN);
     year := y;
     gdp := nth i (column df (str_Z y)) (CNum NaN) |}.

Definition long_table (df : frame) (ys : list Z) : list long_row :=
  flat_map (fun y => map (long_row_at df y) (seq 0 (nrows df))) ys.

(** The key of a long row: [(Country Code, Year)]. *)
Definition key (r : long_row) : cell * Z := (country_code r, year r).

(** ** Sample inputs *)

(** Two countries, years 2020 and 2021; Germany's 2021 value is the
    sentinel [".."]. *)
Definition sample_raw : raw_csv :=
  {| header := ["Country Name"; "Country Code"; "Indicator Name"; "2020"; "2021"];
     data := [[TokText "Germany"; TokText "DEU"; TokText "GDP (current US$)";
               TokNum (f64_of_Z 3000) "3000"; TokText ".."];
              [TokText "France"; TokText "FRA"; TokText "GDP (current US$)";
               TokNum (f64_of_Z 10) "10"; TokNum (f64_of_Z 25) "25"]] |}.

(** The same country listed twice. *)
Definition dup_raw : raw_csv :=
  {| header := ["Country Name"; "Country Code"; "2020"; "2021"];
     data := [[TokText "Germany"; TokText "DEU"; TokNum (f64_of_Z 1) "1"; TokNum (f64_of_Z 2) "2"];
              [TokText "Germany"; TokText "DEU"; TokNum (f64_of_Z 7) "7"; TokNum (f64_of_Z 8) "8"]] |}.


(** A GDP that falls by one eighth. *)
Definition ratio_raw : raw_csv :=
  {| header := ["Country Name"; "Country Code"; "2020"; "2021"];
     data := [[TokText "Germany"; TokText "DEU"; TokNum (f64_of_Z 8) "8";
               TokNum (f64_of_Z 7) "7"]] |}.

(** A nonzero start value in the subnormal range: [1e-320] is read as the
    float64 [2024 * 2 ^ -1074]. *)
Definition tiny_raw : raw_csv :=
  {| header := ["Country Name"; "Country Code"; "2020"; "2021"];
     data := [[TokText "Germany"; TokText "DEU"; TokNum (f64 2024 (-1074)) "1e-320";
               TokNum (f64_of_Z 5) "5"]] |}.

(** ** Generic facts about the error monad and lists *)

Lemma mapM_Ok {A B} (f : A -> result B) (g : A -> B) (l : list A) :
  (forall x, In x l -> f x = Ok (g x)) -> mapM f l = Ok (map g l).
Proof.
  induction l as [|a l IH]; intros H; simpl; [reflexivity|].
  rewrite (H a (or_introl eq_refl)); simpl.
  rewrite IH by (intros x Hx; apply H; right; exact Hx). reflexivity.
Qed.

Lemma mapM_Forall2 {A B} (f : A -> result B) (l : list A) (l' : list B) :
  mapM f l = Ok l' -> Forall2 (fun a b => f a = Ok b) l l'.
Proof.
  revert l'; induction l as [|a l IH]; intros l' H; simpl in H.
  - injection H as <-. constructor.
  - destruct (f a) as [b|e] eqn:Hf; simpl in H; [|discriminate].
    destruct (mapM f l) as [bs|e] eqn:Hm; simpl in H; [|discriminate].
    injection H as <-. constructor; [exact Hf | apply IH; reflexivity].
Qed.

Lemma to_numeric_str_Z (y : Z) : to_numeric (str_Z y) = Some y.
Proof.
  unfold to_numeric, str_Z.
  rewrite NilZero.isi; [simpl; rewrite DecimalZ.of_to; reflexivity| |];
  destruct y as [|p|p]; simpl; try discriminate;
  intros [=H]; exact (Unsigned.to_uint_nonnil p H).
Qed.

(** ** Column selection *)

Lemma lookup_col_map (names : list string) (f : string -> list cell) (c : string) :
  In c names -> lookup_col (map (fun n => (n, f n)) names) c = Some (f c).
Proof.
  induction names as [|a names IH]; simpl; [intros []|].
  intros Hc. destruct (String.eqb_spec a c) as [->|Hne]; [reflexivity|].
  apply IH. destruct Hc as [->|Hc]; [congruence|exact Hc].
Qed.

Lemma filter_none {A} (p : A -> bool) (l : list A) :
  (forall x, In x l -> p x = false) -> filter p l = [].
Proof.
  induction l as [|a l IH]; intros H; simpl; [reflexivity|].
  rewrite (H a (or_introl eq_refl)). apply IH. intros x Hx; apply H; right; exact Hx.
Qed.

Lemma select_ok (df : frame) (names : list string) :
  (forall c, In c names -> has_col (columns df) c = true) ->
  select df names = Ok {| nrows := nrows df;
                          columns := map (fun n => (n, column df n)) names |}.
Proof.
  intros H. unfold select. rewrite filter_none; [reflexivity|].
  intros x Hx. rewrite (H x Hx). reflexivity.
Qed.

Lemma select_err (df : frame) (names : list string) (e : error) :
  select df names = Err e ->
  exists missing, e = KeyError missing /\ missing <> [] /\
    forall c, In c missing -> In c names /\ has_col (columns df) c = false.
Proof.
  unfold select. destruct (filter _ names) as [|m ms] eqn:Hf; [discriminate|].
  intros [= <-]. exists (m :: ms). split; [reflexivity|]. split; [discriminate|].
  intros c Hc. rewrite <- Hf in Hc. apply filter_In in Hc as [Hin Hn].
  split; [exact Hin|]. destruct (has_col _ c); [discriminate|reflexivity].
Qed.

(** ** Shape of the frame built by [read_csv] *)

Lemma parse_column_length (ts : list token) :
  List.length (parse_column ts) = List.length ts.
Proof. unfold parse_column. destruct (forallb _ _); apply length_map. Qed.

Lemma lookup_col_length (cols : list (string * list cell)) (n : nat) (c : string)
    (v : list cell) :
  (forall p, In p cols -> List.length (snd p) = n) ->
  lookup_col cols c = Some v -> List.length v = n.
Proof.
  induction cols as [|[m w] cols IH]; simpl; [discriminate|].
  intros H. destruct (String.eqb m c).
  - intros [= <-]. exact (H (m, w) (or_introl eq_refl)).
  - apply IH. intros p Hp. apply H. right. exact Hp.
Qed.

Lemma read_csv_column_length (raw : raw_csv) (c : string) :
  has_col (columns (read_csv raw)) c = true ->
  List.length (column (read_csv raw) c) = nrows (read_csv raw).
Proof.
  unfold has_col, column. destruct (lookup_col _ c) as [v|] eqn:Hl; [|discriminate].
  intros _. eapply lookup_col_length; [|exact Hl].
  intros [m w] Hp. simpl in Hp. apply in_map_iff in Hp as [[j name] [Heq _]].
  injection Heq as <- <-. simpl. rewrite parse_column_length, length_map. reflexivity.
Qed.

(** [combine] of columns of one length, read through indices. *)
Lemma combine3_seq {A B C} (a : list A) (b : list B) (c : list C) (n : nat)
    (da : A) (db : B) (dc : C) :
  List.length a = n -> List.length b = n -> List.length c = n ->
  combine (combine a b) c =
  map (fun i => ((nth i a da, nth i b db), nth i c dc)) (seq 0 n).
Proof.
  revert b c n. induction a as [|x a IH]; intros b c n Ha Hb Hc; simpl in Ha; subst n.
  - reflexivity.
  - destruct b as [|y b]; [discriminate|]. destruct c as [|z c]; [discriminate|].
    simpl in Hb, Hc. injection Hb as Hb. injection Hc as Hc. simpl.
    rewrite (IH b c (List.length a)) by congruence.
    rewrite <- seq_shift, map_map. reflexivity.
Qed.

(** ** [get_gdp_data_range] computes [long_table] *)

Lemma in_required_year (lo hi y : Z) :
  In y (zrange lo hi) -> In (str_Z y) (required_columns lo hi).
Proof.
  intros Hy. unfold required_columns, year_cols. right. right.
  apply in_map. exact Hy.
Qed.

Lemma get_gdp_data_range_ok (raw : raw_csv) (lo hi : Z) :
  (forall c, In c (required_columns lo hi) ->
             has_col (columns (read_csv raw)) c = true) ->
  get_gdp_data_range raw lo hi = Ok (long_table (read_csv raw) (zrange lo hi)).
Proof.
  intros H. unfold get_gdp_data_range. rewrite (select_ok _ _ H). cbn [bind].
  set (df := read_csv raw) in *.
  set (sel := {| nrows := nrows df;
                 columns := map (fun n => (n, column df n)) (required_columns lo hi) |}).
  assert (Hcol : forall c, In c (required_columns lo hi) ->
                           col_or_error sel c = Ok (column df c)).
  { intros c Hc. unfold col_or_error, sel. cbn [columns]. rewrite lookup_col_map by exact Hc.
    reflexivity. }
  assert (Hlen : forall c, In c (required_columns lo hi) ->
                           List.length (column df c) = nrows df).
  { intros c Hc. exact (read_csv_column_length raw c (H c Hc)). }
  assert (HN : In "Country Name" (required_columns lo hi)) by (left; reflexivity).
  assert (HC : In "Country Code" (required_columns lo hi)) by (right; left; reflexivity).
  unfold melt. rewrite (Hcol _ HN), (Hcol _ HC). cbn [bind].
  set (N := column df "Country Name"). set (C := column df "Country Code").
  rewrite (mapM_Ok _ (fun v => map (fun '((n, c), x) =>
                                      {| mr_name := n; mr_code := c;
                                         mr_year := v; mr_gdp := x |})
                                   (combine (combine N C) (column df v)))).
  2:{ intros v Hv. rewrite Hcol by (right; right; exact Hv). reflexivity. }
  cbn [bind].
  assert (Hm : List.concat
                 (map (fun v => map (fun '((n, c), x) =>
                                       {| mr_name := n; mr_code := c;
                                          mr_year := v; mr_gdp := x |})
                                    (combine (combine N C) (column df v)))
                      (year_cols lo hi)) =
               flat_map (fun y =>
                           map (fun i => {| mr_name := nth i N (CNum NaN);
                                            mr_code := nth i C (CNum NaN);
                                            mr_year := str_Z y;
                                            mr_gdp := nth i (column df (str_Z y)) (CNum NaN) |})
                               (seq 0 (nrows df)))
                        (zrange lo hi)).
  { rewrite flat_map_concat_map. unfold year_cols. rewrite map_map. f_equal.
    apply map_ext_in. intros y Hy.
    rewrite (combine3_seq _ _ _ (nrows df) (CNum NaN) (CNum NaN) (CNum NaN))
      by (apply Hlen; auto using in_required_year).
    rewrite map_map. reflexivity. }
  rewrite Hm. unfold convert_year.
  rewrite (mapM_Ok _ (fun r => {| country_name := mr_name r; country_code := mr_code r;
                                  year := match to_numeric (mr_year r) with
                                          | Some y => y | None => 0 end;
                                  gdp := mr_gdp r |})).
  2:{ intros x Hx. apply in_flat_map in Hx as [y [_ Hx]].
      apply in_map_iff in Hx as [i [<- _]]. simpl. rewrite to_numeric_str_Z.
      reflexivity. }
  f_equal. clear Hm. unfold long_table. induction (zrange lo hi) as [|y ys IH]; [reflexivity|].
  cbn [flat_map]. rewrite map_app, IH, map_map. f_equal. apply map_ext. intros i. simpl.
  rewrite to_numeric_str_Z. reflexivity.
Qed.

Lemma select_fails (df : frame) (names : list string) :
  forallb (has_col (columns df)) names = false ->
  exists e, select df names = Err e.
Proof.
  unfold select. destruct (filter _ names) as [|m ms] eqn:Hf; [|eexists; reflexivity].
  intros Hall. exfalso. revert Hf Hall. induction names as [|a names IH]; simpl;
  [discriminate|]. destruct (has_col _ a); simpl; [exact IH|discriminate].
Qed.

Lemma get_gdp_data_range_Ok_inv (raw : raw_csv) (lo hi : Z) (L : list long_row) :
  get_gdp_data_range raw lo hi = Ok L ->
  (forall c, In c (required_columns lo hi) ->
             has_col (columns (read_csv raw)) c = true) /\
  L = long_table (read_csv raw) (zrange lo hi).
Proof.
  intros HL.
  destruct (forallb (has_col (columns (read_csv raw))) (required_columns lo hi))
    eqn:Hall.
  - rewrite forallb_forall in Hall. split; [exact Hall|].
    rewrite get_gdp_data_range_ok in HL by exact Hall. injection HL as <-. reflexivity.
  - apply select_fails in Hall as [e He]. unfold get_gdp_data_range in HL.
    rewrite He in HL. discriminate.
Qed.

(** ** Facts about [zrange] and [long_table] *)

Lemma length_zrange (lo hi : Z) :
  List.length (zrange lo hi) = Z.to_nat (hi - lo + 1).
Proof. unfold zrange. rewrite length_map, length_seq. reflexivity. Qed.

Lemma in_zrange (lo hi y : Z) : In y (zrange lo hi) <-> lo <= y <= hi.
Proof.
  unfold zrange. rewrite in_map_iff. split.
  - intros [k [<- Hk]]. apply in_seq in Hk. lia.
  - intros Hy. exists (Z.to_nat (y - lo)). split; [lia|]. apply in_seq. lia.
Qed.

Lemma nth_error_zrange (lo hi y : Z) :
  lo <= y <= hi -> nth_error (zrange lo hi) (Z.to_nat (y - lo)) = Some y.
Proof.
  intros Hy. unfold zrange. rewrite nth_error_map, nth_error_seq.
  replace (Nat.ltb (Z.to_nat (y - lo)) (Z.to_nat (hi - lo + 1))) with true
    by (symmetry; apply Nat.ltb_lt; lia).
  simpl. f_equal. lia.
Qed.

Lemma NoDup_zrange (lo hi : Z) : NoDup (zrange lo hi).
Proof.
  unfold zrange. apply Injective_map_NoDup_in; [|apply seq_NoDup].
  intros x y _ _ Hxy. lia.
Qed.

Lemma length_long_table (df : frame) (ys : list Z) :
  List.length (long_table df ys) = (List.length ys * nrows df)%nat.
Proof.
  unfold long_table. induction ys as [|y ys IH]; [reflexivity|].
  cbn [flat_map]. rewrite length_app, IH, length_map, length_seq. simpl. lia.
Qed.

Lemma in_long_table (df : frame) (ys : list Z) (r : long_row) :
  In r (long_table df ys) <->
  exists y i, In y ys /\ (i < nrows df)%nat /\ r = long_row_at df y i.
Proof.
  unfold long_table. rewrite in_flat_map. split.
  - intros [y [Hy Hr]]. apply in_map_iff in Hr as [i [<- Hi]]. apply in_seq in Hi.
    exists y, i. repeat split; [exact Hy|lia].
  - intros [y [i [Hy [Hi ->]]]]. exists y. split; [exact Hy|].
    apply in_map. apply in_seq. lia.
Qed.

Lemma nth_error_long_table (df : frame) (ys : list Z) (k i : nat) (y : Z) :
  nth_error ys k = Some y -> (i < nrows df)%nat ->
  nth_error (long_table df ys) (k * nrows df + i) = Some (long_row_at df y i).
Proof.
  unfold long_table. revert k. induction ys as [|y' ys IH]; intros k Hk Hi;
  [destruct k; discriminate|]. cbn [flat_map].
  destruct k as [|k]; simpl in Hk.
  - injection Hk as ->. rewrite nth_error_app1 by (rewrite length_map, length_seq; lia).
    rewrite nth_error_map, nth_error_seq. simpl.
    replace (Nat.ltb i (nrows df)) with true by (symmetry; apply Nat.ltb_lt; lia).
    reflexivity.
  - rewrite nth_error_app2 by (rewrite length_map, length_seq; lia).
    rewrite length_map, length_seq.
    replace (S k * nrows df + i - nrows df)%nat with (k * nrows df + i)%nat by lia.
    apply IH; assumption.
Qed.

Lemma NoDup_long_table_keys (df : frame) (ys : list Z) :
  NoDup ys -> NoDup (column df "Country Code") ->
  List.length (column df "Country Code") = nrows df ->
  NoDup (map key (long_table df ys)).
Proof.
  intros Hys Hcodes Hlen. unfold long_table.
  induction Hys as [|y ys Hy Hys IH]; [constructor|]. cbn [flat_map].
  rewrite map_app. apply NoDup_app; [| exact IH |].
  - rewrite map_map. apply Injective_map_NoDup_in; [|apply seq_NoDup].
    intros i j Hi Hj Hij. apply in_seq in Hi, Hj. injection Hij as Hij.
    rewrite NoDup_nth in Hcodes. apply (Hcodes i j); lia || exact Hij.
  - intros [c y'] H1 H2. rewrite map_map in H1. apply in_map_iff in H1 as [i [Hi _]].
    injection Hi as _ <-. apply in_map_iff in H2 as [r [Hr Hin]].
    apply in_flat_map in Hin as [y'' [Hy'' Hin]]. apply in_map_iff in Hin as [j [<- _]].
    injection Hr as _ <-. exact (Hy Hy'').
Qed.

(** ** Reading a column by its header position *)

Lemma lookup_col_indexed (G : nat -> list cell) (hs : list string) (k j : nat)
    (c : string) :
  nth_error hs j = Some c ->
  (forall j', (j' < j)%nat -> nth_error hs j' <> Some c) ->
  lookup_col (map (fun '(j, name) => (name, G j)) (combine (seq k (List.length hs)) hs)) c
  = Some (G (k + j)%nat).
Proof.
  revert k j. induction hs as [|h hs IH]; intros k j Hj Hfirst;
  [destruct j; discriminate|]. simpl.
  destruct j as [|j]; simpl in Hj.
  - injection Hj as ->. rewrite String.eqb_refl, Nat.add_0_r. reflexivity.
  - destruct (String.eqb_spec h c) as [->|Hne].
    + exfalso. apply (Hfirst 0%nat); [lia|reflexivity].
    + rewrite (IH (S k) j Hj).
      * f_equal. f_equal. lia.
      * intros j' Hj'. apply (Hfirst (S j')). lia.
Qed.

Lemma column_read_csv (raw : raw_csv) (j : nat) (c : string) :
  nth_error (header raw) j = Some c ->
  (forall j', (j' < j)%nat -> nth_error (header raw) j' <> Some c) ->
  column (read_csv raw) c = parse_column (map (field j) (data raw)).
Proof.
  intros Hj Hfirst. unfold column, read_csv. cbn [columns].
  rewrite (lookup_col_indexed (fun j => parse_column (map (field j) (data raw)))
             (header raw) 0 j c Hj Hfirst).
  reflexivity.
Qed.

Lemma parse_column_sentinel (ts : list token) (i : nat) :
  nth_error ts i = Some (TokText "..") ->
  nth i (parse_column ts) (CNum NaN) = CNum NaN.
Proof.
  intros Hi. apply nth_error_nth. unfold parse_column.
  destruct (forallb tok_numeric ts); rewrite nth_error_map, Hi; reflexivity.
Qed.

(** ** The per-year lookup *)

Lemma in_year_df (L : list long_row) (y : Z) (r : long_row) :
  In r (year_df L y) <-> In r L /\ year r = y.
Proof. unfold year_df. rewrite filter_In, Z.eqb_eq. reflexivity. Qed.


Lemma metric_for_country (f l : list long_row) (c : cell) (m : metric) :
  metric_for f l c = Ok m -> m_country m = c.
Proof.
  unfold metric_for.
  destruct (gdp_in_billions f c) as [a|]; simpl; [|discriminate].
  destruct (gdp_in_billions l c) as [b|]; simpl; [|discriminate].
  destruct (isnan a || num_eq_zero a); simpl.
  - intros [= <-]. reflexivity.
  - destruct (num_div b a); simpl; [|discriminate]. intros [= <-]. reflexivity.
Qed.

Lemma forallb_false {A} (f : A -> bool) (l : list A) :
  forallb f l = false -> exists x, In x l /\ f x = false.
Proof.
  induction l as [|a l IH]; simpl; [discriminate|].
  destruct (f a) eqn:Ha; simpl.
  - intros H. destruct (IH H) as [x [Hx Hf]]. exists x. split; [right|]; assumption.
  - intros _. exists a. split; [left; reflexivity|exact Ha].
Qed.

(** Float equality: two zeros of either sign, or the same non-NaN value. *)
Lemma feqb_true (x y : num) :
  feqb x y = true ->
  (exists s1 s2, x = S754_zero s1 /\ y = S754_zero s2) \/ (x = y /\ isnan x = false).
Proof.
  unfold feqb, SFeqb, SFcompare.
  destruct x as [s1|s1| |s1 m1 e1], y as [s2|s2| |s2 m2 e2];
    try (destruct s1); try (destruct s2); try discriminate; intros H;
    try (left; eexists; eexists; split; reflexivity);
    try (right; split; reflexivity).
  all: destruct (Z.compare e1 e2) eqn:Ez; try discriminate;
    apply Z.compare_eq in Ez; subst e2;
    destruct (PosDef.Pos.compare_cont Eq m1 m2) eqn:E; try discriminate;
    apply Pos.compare_eq_iff in E as <-; right; split; reflexivity.
Qed.

Lemma feqb_of (x y : num) :
  (exists s1 s2, x = S754_zero s1 /\ y = S754_zero s2) \/ (x = y /\ isnan x = false) ->
  feqb x y = true.
Proof.
  intros [[s1 [s2 [-> ->]]]|[<- Hn]]; [reflexivity|].
  unfold feqb, SFeqb, SFcompare.
  destruct x as [s|s| |s m e]; try discriminate; try (destruct s; reflexivity).
  rewrite Z.compare_refl.
  change (Pos.compare_cont Eq m m) with (Pos.compare m m). rewrite Pos.compare_refl.
  destruct s; reflexivity.
Qed.

Lemma feqb_refl (x : num) : isnan x = false -> feqb x x = true.
Proof. intros H. apply feqb_of. right. split; [reflexivity|exact H]. Qed.

Lemma feqb_sym (x y : num) : feqb x y = feqb y x.
Proof.
  destruct (feqb x y) eqn:E1, (feqb y x) eqn:E2; try reflexivity.
  - rewrite <- E2. symmetry. apply feqb_of.
    destruct (feqb_true _ _ E1) as [[s1 [s2 [-> ->]]]|[-> Hn]].
    + left. eauto.
    + right. split; [reflexivity|exact Hn].
  - rewrite <- E1. apply feqb_of.
    destruct (feqb_true _ _ E2) as [[s1 [s2 [-> ->]]]|[-> Hn]].
    + left. eauto.
    + right. split; [reflexivity|exact Hn].
Qed.

Lemma feqb_trans (x y z : num) :
  feqb x y = true -> feqb y z = true -> feqb x z = true.
Proof.
  intros H1 H2. apply feqb_of.
  destruct (feqb_true _ _ H1) as [[s1 [s2 [-> ->]]]|[<- Hn]];
  destruct (feqb_true _ _ H2) as [[s3 [s4 [E ->]]]|[<- Hn']];
    subst; first [left; eauto; fail | right; split; [reflexivity|assumption]].
Qed.

(** * Claims *)

(** ** Growth metrics *)

(** C1 (the code diverges).  The start value of Germany (3000) is present
    and nonzero, its end value is the missing sentinel: the growth delta is
    [f"{nan:,.2f}x"] (that is "nanx", delta_color 'normal') and not the
    ['n/a'] that the code shows when the start value is missing, although
    the displayed value for the same missing end value is ['n/a']. *)
Theorem growth_missing_end_is_formatted_nan :
  exists L ms,
    get_gdp_data_range sample_raw 2020 2021 = Ok L /\
    compute_metrics L [CStr "DEU"] 2020 2021 = Ok ms /\
    map m_growth ms = [GrowthFmt NaN] /\ map m_value ms = [None].
Proof.
  eexists; eexists. split; [vm_compute; reflexivity|].
  split; [vm_compute; reflexivity|]. split; reflexivity.
Qed.

(** C2 (counterexample).  A long table with two rows keyed (DEU, 2020): the
    metrics loop returns its normal result, built from the first of them. *)
Lemma duplicate_keys_no_error :
  exists L ms,
    get_gdp_data_range dup_raw 2020 2021 = Ok L /\
    compute_metrics L [CStr "DEU"] 2020 2021 = Ok ms /\
    lookup_gdp (year_df L 2020) (CStr "DEU") = Some (CNum (f64_of_Z 1)).
Proof.
  eexists; eexists. split; [vm_compute; reflexivity|].
  split; [vm_compute; reflexivity|]. vm_compute. reflexivity.
Qed.

(** C2 (amended).  The lookup [df[df['Country Code'] == c]['GDP'].iat[0]]
    raises nothing when several rows share the key (code, year): it yields
    the GDP of the first matching row in table order. *)
Theorem lookup_takes_first_match (pre post : list long_row) (r : long_row)
    (c : cell) (y : Z) :
  year r = y ->
  cell_eq (country_code r) c = true ->
  (forall r', In r' pre -> year r' = y -> cell_eq (country_code r') c = false) ->
  lookup_gdp (year_df (pre ++ r :: post) y) c = Some (gdp r).
Proof.
  intros Hy Hc Hpre. unfold lookup_gdp, year_df, iat0.
  rewrite !filter_app.
  rewrite (filter_none _ (filter (fun r0 => Z.eqb (year r0) y) pre)).
  - simpl. rewrite Hy, Z.eqb_refl. simpl. rewrite Hc. reflexivity.
  - intros x Hx. apply filter_In in Hx as [Hx Hxy]. apply Z.eqb_eq in Hxy.
    exact (Hpre x Hx Hxy).
Qed.

Lemma lookup_takes_first_match_witness :
  lookup_gdp
    (year_df ([{| country_name := CStr "France"; country_code := CStr "FRA";
                  year := 2020; gdp := CNum (f64_of_Z 10) |}] ++
              {| country_name := CStr "Germany"; country_code := CStr "DEU";
                 year := 2020; gdp := CNum (f64_of_Z 1) |} ::
              [{| country_name := CStr "Germany"; country_code := CStr "DEU";
                  year := 2020; gdp := CNum (f64_of_Z 7) |}]) 2020)
    (CStr "DEU") = Some (CNum (f64_of_Z 1)).
Proof.
  apply (lookup_takes_first_match
           [{| country_name := CStr "France"; country_code := CStr "FRA";
               year := 2020; gdp := CNum (f64_of_Z 10) |}]
           [{| country_name := CStr "Germany"; country_code := CStr "DEU";
               year := 2020; gdp := CNum (f64_of_Z 7) |}]
           {| country_name := CStr "Germany"; country_code := CStr "DEU";
              year := 2020; gdp := CNum (f64_of_Z 1) |}
           (CStr "DEU") 2020).
  - reflexivity.
  - reflexivity.
  - intros r' [<-|[]] _. reflexivity.
Defined.

(** C3 (counterexample).  Both divisions are float64 divisions, each
    rounded.  A start of 8 and an end of 7 give the growth
    [(7/1e9)/(8/1e9) = 0.8749999999999999], not [7/8 = 0.875] (so "0.87x",
    not "0.88x"); and the nonzero start [1e-320] becomes [0.0] once divided
    by [1e9], so its growth is ['n/a'] instead of a ratio. *)
Lemma growth_not_exact_ratio :
  (exists L m r,
     get_gdp_data_range ratio_raw 2020 2021 = Ok L /\
     compute_metrics L [CStr "DEU"] 2020 2021 = Ok [m] /\
     m_growth m = GrowthFmt r /\
     feqb r (fdiv (f64_of_Z 7) (f64_of_Z 8)) = false) /\
  (exists L m,
     get_gdp_data_range tiny_raw 2020 2021 = Ok L /\
     lookup_gdp (year_df L 2020) (CStr "DEU") = Some (CNum (f64 2024 (-1074))) /\
     num_eq_zero (f64 2024 (-1074)) = false /\
     compute_metrics L [CStr "DEU"] 2020 2021 = Ok [m] /\
     m_growth m = GrowthNA).
Proof.
  split.
  - do 3 eexists. split; [vm_compute; reflexivity|].
    split; [vm_compute; reflexivity|]. split; [reflexivity|].
    vm_compute. reflexivity.
  - do 2 eexists. split; [vm_compute; reflexivity|].
    split; [vm_compute; reflexivity|]. split; [vm_compute; reflexivity|].
    split; [vm_compute; reflexivity|]. reflexivity.
Qed.

(** C3 (amended).  When the start and end GDP of a country are both
    numbers, the growth delta is ['n/a'] if the start divided by [1e9] is
    NaN or compares equal to 0, and otherwise formats the float64 quotient
    [(end / 1e9) / (start / 1e9)], each division rounded to nearest. *)
Theorem growth_is_float_ratio (L : list long_row) (c : cell) (a b : Z) (s e : num) :
  lookup_gdp (year_df L a) c = Some (CNum s) ->
  lookup_gdp (year_df L b) c = Some (CNum e) ->
  exists m, compute_metrics L [c] a b = Ok [m] /\
    m_first m = fdiv s f64_1e9 /\ m_last m = fdiv e f64_1e9 /\
    m_growth m =
      (if isnan (fdiv s f64_1e9) || num_eq_zero (fdiv s f64_1e9) then GrowthNA
       else GrowthFmt (fdiv (fdiv e f64_1e9) (fdiv s f64_1e9))).
Proof.
  intros Hs He.
  unfold compute_metrics. cbn [mapM]. unfold metric_for, gdp_in_billions.
  rewrite Hs, He. cbn [billions bind].
  destruct (isnan (fdiv s f64_1e9) || num_eq_zero (fdiv s f64_1e9)) eqn:E.
  - cbn [bind]. eexists. split; [reflexivity|]. repeat split.
  - apply orb_false_iff in E as [_ E]. unfold num_div. rewrite E. cbn [bind].
    eexists. split; [reflexivity|]. repeat split.
Qed.

(** At the spec's example (start 10, end 25) the float64 growth is exactly
    [2.5 = 5 * 2 ^ -1]. *)
Lemma growth_is_float_ratio_witness :
  exists m,
    compute_metrics (long_table (read_csv sample_raw) (zrange 2020 2021))
      [CStr "FRA"] 2020 2021 = Ok [m] /\
    m_growth m = GrowthFmt (f64 5 (-1)).
Proof.
  destruct (growth_is_float_ratio (long_table (read_csv sample_raw) (zrange 2020 2021))
              (CStr "FRA") 2020 2021 (f64_of_Z 10) (f64_of_Z 25))
    as [m [Hm [_ [_ Hg]]]].
  - vm_compute. reflexivity.
  - vm_compute. reflexivity.
  - exists m. split; [exact Hm|]. rewrite Hg. vm_compute. reflexivity.
Defined.

(** ** Reshaping *)

(** C4.  When every required column is present and [lo <= hi], the long
    table has [|rows| * (hi - lo + 1)] rows, and contains the row of every
    (row, year) combination. *)
Theorem reshape_cardinality (raw : raw_csv) (lo hi : Z) :
  (forall c, In c (required_columns lo hi) ->
             has_col (columns (read_csv raw)) c = true) ->
  lo <= hi ->
  exists L, get_gdp_data_range raw lo hi = Ok L /\
    Z.of_nat (List.length L) = Z.of_nat (List.length (data raw)) * (hi - lo + 1) /\
    (forall y i, lo <= y <= hi -> (i < List.length (data raw))%nat ->
                 In (long_row_at (read_csv raw) y i) L).
Proof.
  intros H Hle. rewrite get_gdp_data_range_ok by exact H.
  eexists. split; [reflexivity|]. split.
  - rewrite length_long_table, length_zrange. cbn [nrows read_csv].
    rewrite Nat2Z.inj_mul, Z2Nat.id by lia. lia.
  - intros y i Hy Hi. apply in_long_table. exists y, i.
    split; [apply in_zrange; exact Hy|]. split; [exact Hi|reflexivity].
Qed.

Lemma reshape_cardinality_witness :
  exists L, get_gdp_data_range sample_raw 2020 2021 = Ok L /\
    Z.of_nat (List.length L) = Z.of_nat (List.length (data sample_raw)) * (2021 - 2020 + 1) /\
    (forall y i, 2020 <= y <= 2021 -> (i < List.length (data sample_raw))%nat ->
                 In (long_row_at (read_csv sample_raw) y i) L).
Proof.
  apply reshape_cardinality.
  - apply forallb_forall. vm_compute. reflexivity.
  - lia.
Defined.

(** C5 (counterexample).  Two rows of the wide table with the code DEU give
    two long rows keyed (DEU, 2020). *)
Lemma reshape_duplicate_keys :
  exists L, get_gdp_data_range dup_raw 2020 2021 = Ok L /\ ~ NoDup (map key L).
Proof.
  eexists. split; [vm_compute; reflexivity|].
  intros H. apply NoDup_cons_iff in H as [Hn _]. apply Hn. left. reflexivity.
Qed.

(** C5 (amended).  When the codes of the wide table are pairwise distinct,
    no two long rows share a key (code, year); whatever the codes, every long
    row carries the name, the code and the value of one row [i] of the wide
    table, for a year of the range. *)
Theorem reshape_keys_unique (raw : raw_csv) (lo hi : Z) :
  (forall c, In c (required_columns lo hi) ->
             has_col (columns (read_csv raw)) c = true) ->
  NoDup (column (read_csv raw) "Country Code") ->
  exists L, get_gdp_data_range raw lo hi = Ok L /\
    NoDup (map key L) /\
    forall r, In r L -> exists i, (i < List.length (data raw))%nat /\
      lo <= year r <= hi /\
      country_name r = nth i (column (read_csv raw) "Country Name") (CNum NaN) /\
      country_code r = nth i (column (read_csv raw) "Country Code") (CNum NaN) /\
      gdp r = nth i (column (read_csv raw) (str_Z (year r))) (CNum NaN).
Proof.
  intros H Hcodes. rewrite get_gdp_data_range_ok by exact H.
  eexists. split; [reflexivity|]. split.
  - apply NoDup_long_table_keys; [apply NoDup_zrange|exact Hcodes|].
    apply read_csv_column_length, H. right. left. reflexivity.
  - intros r Hr. apply in_long_table in Hr as [y [i [Hy [Hi ->]]]].
    exists i. apply in_zrange in Hy. cbn [nrows read_csv] in Hi.
    unfold long_row_at; cbn [year country_name country_code gdp].
    repeat split; (lia || reflexivity).
Qed.

Lemma reshape_keys_unique_witness :
  exists L, get_gdp_data_range sample_raw 2020 2021 = Ok L /\
    NoDup (map key L) /\
    forall r, In r L -> exists i, (i < List.length (data sample_raw))%nat /\
      2020 <= year r <= 2021 /\
      country_name r = nth i (column (read_csv sample_raw) "Country Name") (CNum NaN) /\
      country_code r = nth i (column (read_csv sample_raw) "Country Code") (CNum NaN) /\
      gdp r = nth i (column (read_csv sample_raw) (str_Z (year r))) (CNum NaN).
Proof.
  apply reshape_keys_unique.
  - apply forallb_forall. vm_compute. reflexivity.
  - vm_compute. constructor; [intros [H|[]]; discriminate H|].
    constructor; [intros []|constructor].
Defined.

(** C6.  A ".." field of the wide table under the header [str(y)] of a year
    of the range is read as NaN, and the long row of that entity and year
    (at position [(y - lo) * |rows| + i], as [melt] stacks the years) has
    the value NaN: neither zero nor a string. *)
Theorem sentinel_becomes_nan (raw : raw_csv) (lo hi y : Z) (i j : nat)
    (row : list token) :
  (forall c, In c (required_columns lo hi) ->
             has_col (columns (read_csv raw)) c = true) ->
  lo <= y <= hi ->
  nth_error (header raw) j = Some (str_Z y) ->
  (forall j', (j' < j)%nat -> nth_error (header raw) j' <> Some (str_Z y)) ->
  nth_error (data raw) i = Some row ->
  field j row = TokText ".." ->
  exists L r, get_gdp_data_range raw lo hi = Ok L /\
    nth_error L (Z.to_nat (y - lo) * List.length (data raw) + i) = Some r /\
    year r = y /\
    country_name r = nth i (column (read_csv raw) "Country Name") (CNum NaN) /\
    country_code r = nth i (column (read_csv raw) "Country Code") (CNum NaN) /\
    gdp r = CNum NaN.
Proof.
  intros H Hy Hj Hfirst Hrow Htok. rewrite get_gdp_data_range_ok by exact H.
  exists (long_table (read_csv raw) (zrange lo hi)), (long_row_at (read_csv raw) y i).
  split; [reflexivity|]. split.
  - apply (nth_error_long_table (read_csv raw) (zrange lo hi) _ i y).
    + apply nth_error_zrange. exact Hy.
    + cbn [nrows read_csv]. apply nth_error_Some. rewrite Hrow. discriminate.
  - repeat split. unfold long_row_at. cbn [gdp].
    rewrite (column_read_csv raw j _ Hj Hfirst).
    apply parse_column_sentinel. rewrite nth_error_map, Hrow. simpl.
    rewrite Htok. reflexivity.
Qed.

Lemma sentinel_becomes_nan_witness :
  exists L r, get_gdp_data_range sample_raw 2020 2021 = Ok L /\
    nth_error L (Z.to_nat (2021 - 2020) * List.length (data sample_raw) + 0) = Some r /\
    year r = 2021 /\
    country_name r = nth 0 (column (read_csv sample_raw) "Country Name") (CNum NaN) /\
    country_code r = nth 0 (column (read_csv sample_raw) "Country Code") (CNum NaN) /\
    gdp r = CNum NaN.
Proof.
  apply (sentinel_becomes_nan sample_raw 2020 2021 2021 0 4
           [TokText "Germany"; TokText "DEU"; TokText "GDP (current US$)";
            TokNum (f64_of_Z 3000) "3000"; TokText ".."]).
  - apply forallb_forall. vm_compute. reflexivity.
  - lia.
  - vm_compute. reflexivity.
  - intros j' Hj'. destruct j' as [|[|[|[|j']]]]; [vm_compute; discriminate ..|lia].
  - reflexivity.
  - reflexivity.
Defined.

(** ** Output order *)

(** C7.  For a selection without repeated codes (the multiselect returns
    distinct options of [unique()]), the metrics come out in the order of
    [selected_countries], one per selected code, so no code is reported
    twice, whatever the order of the long table. *)
Theorem metrics_follow_selection (L : list long_row) (sel : list cell)
    (a b : Z) (ms : list metric) :
  NoDup sel ->
  compute_metrics L sel a b = Ok ms ->
  map m_country ms = sel /\ NoDup (map m_country ms).
Proof.
  intros Hnd H. unfold compute_metrics in H. apply mapM_Forall2 in H.
  assert (Hmap : map m_country ms = sel).
  { clear Hnd. induction H as [|c m sel ms Hm _ IH]; [reflexivity|].
    simpl. rewrite (metric_for_country _ _ _ _ Hm), IH. reflexivity. }
  split; [exact Hmap|]. rewrite Hmap. exact Hnd.
Qed.

Lemma metrics_follow_selection_witness :
  exists ms,
    compute_metrics (long_table (read_csv sample_raw) (zrange 2020 2021))
      [CStr "FRA"; CStr "DEU"; CStr "XYZ"] 2020 2021 = Ok ms /\
    map m_country ms = [CStr "FRA"; CStr "DEU"; CStr "XYZ"] /\
    NoDup (map m_country ms).
Proof.
  destruct (compute_metrics (long_table (read_csv sample_raw) (zrange 2020 2021))
              [CStr "FRA"; CStr "DEU"; CStr "XYZ"] 2020 2021) as [ms|e] eqn:H.
  - exists ms. split; [reflexivity|].
    apply (metrics_follow_selection (long_table (read_csv sample_raw) (zrange 2020 2021))
             [CStr "FRA"; CStr "DEU"; CStr "XYZ"] 2020 2021 ms); [|exact H].
    repeat apply NoDup_cons; try apply NoDup_nil;
      simpl; intros Hin; repeat destruct Hin as [Hin|Hin]; try discriminate Hin; exact Hin.
  - vm_compute in H. discriminate H.
Defined.

(** ** Failure of the reshape *)

(** C8.  [get_gdp_data_range] fails exactly when one of the required
    columns ([Country Name], [Country Code], a year of the range) is
    absent; the failure is the [KeyError] of the column selection, listing
    absent required columns, and carries no partial table.  Cell values,
    NaN or not, never make it fail. *)
Theorem reshape_fails_iff_column_missing (raw : raw_csv) (lo hi : Z) :
  ((exists c, In c (required_columns lo hi) /\
              has_col (columns (read_csv raw)) c = false) <->
   (exists e, get_gdp_data_range raw lo hi = Err e)) /\
  (forall e, get_gdp_data_range raw lo hi = Err e ->
     exists missing, e = KeyError missing /\ missing <> [] /\
       forall c, In c missing -> In c (required_columns lo hi) /\
                                 has_col (columns (read_csv raw)) c = false).
Proof.
  destruct (forallb (has_col (columns (read_csv raw))) (required_columns lo hi))
    eqn:Hall.
  - pose proof Hall as Hok. rewrite forallb_forall in Hok.
    rewrite (get_gdp_data_range_ok raw lo hi Hok). split.
    + split.
      * intros [c [Hc Hn]]. rewrite Hok in Hn by exact Hc. discriminate.
      * intros [e He]. discriminate.
    + intros e He. discriminate.
  - destruct (select_fails _ _ Hall) as [e0 He0].
    assert (Hget : get_gdp_data_range raw lo hi = Err e0)
      by (unfold get_gdp_data_range; rewrite He0; reflexivity).
    rewrite Hget. split.
    + split; [intros _; exists e0; reflexivity|].
      intros _. apply forallb_false in Hall. exact Hall.
    + intros e [= <-]. exact (select_err _ _ _ He0).
Qed.

(** ** Determinism *)

(** C9.  Two runs of the reshape, and two runs of the metrics loop, on the
    same inputs give the same result: both are functions of their inputs
    only. *)
Theorem reshape_and_metrics_deterministic :
  (forall raw lo hi, get_gdp_data_range raw lo hi = get_gdp_data_range raw lo hi) /\
  (forall L sel a b, compute_metrics L sel a b = compute_metrics L sel a b).
Proof. split; reflexivity. Qed.

(** ** Reachability of the [IndexError] fallback *)




(** * Further properties of the script *)

(** ** Facts used below *)

Lemma cell_same_refl (x : cell) : cell_same x x = true.
Proof.
  destruct x as [x|s]; simpl; [|apply String.eqb_refl].
  destruct (isnan x) eqn:E; [reflexivity|]. simpl. exact (feqb_refl x E).
Qed.

Lemma cell_same_sym (x y : cell) : cell_same x y = cell_same y x.
Proof.
  destruct x as [x|s], y as [y|t]; simpl; try reflexivity.
  - rewrite andb_comm, feqb_sym. reflexivity.
  - apply String.eqb_sym.
Qed.

Lemma cell_same_trans (x y z : cell) :
  cell_same x y = true -> cell_same y z = true -> cell_same x z = true.
Proof.
  destruct x as [x|s], y as [y|t], z as [z|u]; simpl; try discriminate.
  - intros H1 H2. apply orb_true_iff in H1, H2. apply orb_true_iff.
    destruct H1 as [H1|H1], H2 as [H2|H2].
    + apply andb_true_iff in H1 as [H1 _], H2 as [_ H2]. left.
      rewrite H1, H2. reflexivity.
    + apply andb_true_iff in H1 as [_ H1].
      destruct y, z; unfold feqb, SFeqb in H2; discriminate.
    + apply andb_true_iff in H2 as [H2 _].
      destruct x, y; unfold feqb, SFeqb in H1; discriminate.
    + right. exact (feqb_trans _ _ _ H1 H2).
  - rewrite !String.eqb_eq. intros -> ->. reflexivity.
Qed.

Lemma existsb_same (x : cell) (l : list cell) :
  existsb (cell_same x) l = true <-> exists y, In y l /\ cell_same x y = true.
Proof. apply existsb_exists. Qed.

Lemma unique_go_absorb (l1 l2 seen : list cell) :
  (forall y, In y l2 -> exists x, In x (l1 ++ seen) /\ cell_same y x = true) ->
  unique_go seen (l1 ++ l2) = unique_go seen l1.
Proof.
  revert seen. induction l1 as [|x l1 IH]; intros seen H; simpl.
  - induction l2 as [|y l2 IH2]; [reflexivity|]. simpl.
    replace (existsb (cell_same y) seen) with true.
    + apply IH2. intros z Hz. apply H. right. exact Hz.
    + symmetry. apply existsb_same. apply H. left. reflexivity.
  - destruct (existsb (cell_same x) seen) eqn:Hx.
    + apply IH. intros y Hy. destruct (H y Hy) as [w [Hw Hyw]].
      destruct Hw as [<-|Hw]; [|exists w; split; assumption].
      apply existsb_same in Hx as [v [Hv Hxv]]. exists v.
      split; [apply in_or_app; right; exact Hv|].
      exact (cell_same_trans _ _ _ Hyw Hxv).
    + f_equal. apply IH. intros y Hy. destruct (H y Hy) as [w [Hw Hyw]].
      exists w. split; [|exact Hyw].
      destruct Hw as [<-|Hw]; [apply in_or_app; right; left; reflexivity|].
      apply in_app_or in Hw as [Hw|Hw]; apply in_or_app; [left|right; right]; exact Hw.
Qed.

Lemma unique_go_spec (l seen : list cell) :
  ForallOrdPairs (fun a b => cell_same a b = false) (unique_go seen l) /\
  (forall u s, In u (unique_go seen l) -> In s seen -> cell_same u s = false) /\
  (forall u, In u (unique_go seen l) -> In u l) /\
  (forall x, In x l -> exists u, In u (unique_go seen l ++ seen) /\ cell_same x u = true).
Proof.
  revert seen. induction l as [|x l IH]; intros seen; simpl.
  - split; [constructor|]. split; [intros u s []|]. split; [intros u []|intros x []].
  - destruct (existsb (cell_same x) seen) eqn:Hx.
    + destruct (IH seen) as [H1 [H2 [H3 H4]]]. split; [exact H1|]. split; [exact H2|].
      split; [intros u Hu; right; exact (H3 u Hu)|].
      intros y [<-|Hy]; [|exact (H4 y Hy)].
      apply existsb_same in Hx as [v [Hv Hxv]]. exists v.
      split; [apply in_or_app; right; exact Hv|exact Hxv].
    + destruct (IH (x :: seen)) as [H1 [H2 [H3 H4]]]. split.
      * constructor; [|exact H1]. apply Forall_forall. intros u Hu.
        rewrite cell_same_sym. apply H2; [exact Hu|left; reflexivity].
      * split.
        -- intros u s [<-|Hu] Hs.
           ++ destruct (cell_same x s) eqn:E; [|reflexivity].
              rewrite <- Hx. symmetry. apply existsb_same. exists s. split; assumption.
           ++ apply H2; [exact Hu|right; exact Hs].
        -- split; [intros u [<-|Hu]; [left; reflexivity|right; exact (H3 u Hu)]|].
           intros y [<-|Hy].
           ++ exists x. split; [left; reflexivity|apply cell_same_refl].
           ++ destruct (H4 y Hy) as [w [Hw Hyw]]. exists w. split; [|exact Hyw].
              apply in_app_or in Hw as [Hw|[<-|Hw]].
              ** right. apply in_or_app. left. exact Hw.
              ** left. reflexivity.
              ** right. apply in_or_app. right. exact Hw.
Qed.

Lemma map_nth_seq_self {A} (l : list A) (d : A) :
  map (fun i => nth i l d) (seq 0 (List.length l)) = l.
Proof.
  induction l as [|a l IH]; [reflexivity|]. simpl. f_equal.
  rewrite <- seq_shift, map_map. exact IH.
Qed.

Lemma codes_long_table (df : frame) (ys : list Z) :
  List.length (column df "Country Code") = nrows df ->
  map country_code (long_table df ys) =
  flat_map (fun _ => column df "Country Code") ys.
Proof.
  intros Hlen. unfold long_table. induction ys as [|y ys IH]; [reflexivity|].
  cbn [flat_map]. rewrite map_app, IH, map_map. f_equal.
  rewrite <- Hlen. apply map_nth_seq_self.
Qed.

Lemma fold_min_spec (l : list Z) (y : Z) :
  In (fold_left Z.min l y) (y :: l) /\
  (forall x, In x (y :: l) -> fold_left Z.min l y <= x).
Proof.
  revert y. induction l as [|a l IH]; intros y; simpl.
  - split; [left; reflexivity|intros x [<-|[]]; lia].
  - destruct (IH (Z.min y a)) as [Hin Hle]. split.
    + destruct Hin as [Hm|Hin]; [|right; right; exact Hin].
      rewrite <- Hm. destruct (Z.min_spec y a) as [[_ ->]|[_ ->]];
      [left; reflexivity|right; left; reflexivity].
    + intros x [<-|[<-|Hx]].
      * specialize (Hle (Z.min y a) (or_introl eq_refl)). lia.
      * specialize (Hle (Z.min y a) (or_introl eq_refl)). lia.
      * apply Hle. right. exact Hx.
Qed.

Lemma fold_max_spec (l : list Z) (y : Z) :
  In (fold_left Z.max l y) (y :: l) /\
  (forall x, In x (y :: l) -> x <= fold_left Z.max l y).
Proof.
  revert y. induction l as [|a l IH]; intros y; simpl.
  - split; [left; reflexivity|intros x [<-|[]]; lia].
  - destruct (IH (Z.max y a)) as [Hin Hle]. split.
    + destruct Hin as [Hm|Hin]; [|right; right; exact Hin].
      rewrite <- Hm. destruct (Z.max_spec y a) as [[_ ->]|[_ ->]];
      [right; left; reflexivity|left; reflexivity].
    + intros x [<-|[<-|Hx]].
      * specialize (Hle (Z.max y a) (or_introl eq_refl)). lia.
      * specialize (Hle (Z.max y a) (or_introl eq_refl)). lia.
      * apply Hle. right. exact Hx.
Qed.

(** ** Year columns *)

(** The year labels [str(y)] of the range are pairwise distinct, and
    [pd.to_numeric] turns each back into its year. *)
Theorem year_labels_distinct_and_parse_back (lo hi : Z) :
  NoDup (year_cols lo hi) /\
  map to_numeric (year_cols lo hi) = map Some (zrange lo hi).
Proof.
  split.
  - unfold year_cols. apply Injective_map_NoDup_in; [|apply NoDup_zrange].
    intros x y _ _ Hxy. apply (f_equal to_numeric) in Hxy.
    rewrite !to_numeric_str_Z in Hxy. injection Hxy as Hxy. exact Hxy.
  - unfold year_cols. rewrite map_map. apply map_ext. apply to_numeric_str_Z.
Qed.

(** ** dtype inference of [read_csv] *)


(** ** Order of the rows of [gdp_df] *)

Lemma nth_error_zrange_index (lo hi : Z) (m : nat) :
  (m < Z.to_nat (hi - lo + 1))%nat ->
  nth_error (zrange lo hi) m = Some (lo + Z.of_nat m).
Proof.
  intros Hm. unfold zrange. rewrite nth_error_map, nth_error_seq.
  replace (Nat.ltb m (Z.to_nat (hi - lo + 1))) with true
    by (symmetry; apply Nat.ltb_lt; exact Hm).
  reflexivity.
Qed.

(** [melt] stacks the years: with [n] rows in the file, row [k] of [gdp_df]
    is the file's row [k mod n] at the year [lo + k / n]. *)
Theorem gdp_df_row_order (raw : raw_csv) (lo hi : Z) (L : list long_row) (k : nat) :
  get_gdp_data_range raw lo hi = Ok L ->
  (k < List.length L)%nat ->
  nth_error L k =
  Some (long_row_at (read_csv raw)
          (lo + Z.of_nat (k / List.length (data raw)))
          (k mod List.length (data raw))).
Proof.
  intros HL Hk. apply get_gdp_data_range_Ok_inv in HL as [_ ->].
  rewrite length_long_table, length_zrange in Hk. cbn [nrows read_csv] in Hk.
  set (n := List.length (data raw)) in *.
  assert (Hn : n <> 0%nat) by (intros E; rewrite E in Hk; lia).
  rewrite (Nat.div_mod_eq k n) at 1.
  rewrite Nat.mul_comm.
  apply (nth_error_long_table (read_csv raw) (zrange lo hi) (k / n) (k mod n)).
  - apply nth_error_zrange_index. apply Nat.Div0.div_lt_upper_bound. lia.
  - apply Nat.mod_upper_bound. exact Hn.
Qed.

Lemma gdp_df_row_order_witness :
  nth_error (long_table (read_csv sample_raw) (zrange 2020 2021)) 3 =
  Some (long_row_at (read_csv sample_raw)
          (2020 + Z.of_nat (3 / List.length (data sample_raw)))
          (3 mod List.length (data sample_raw))).
Proof.
  apply (gdp_df_row_order sample_raw 2020 2021).
  - vm_compute. reflexivity.
  - vm_compute. lia.
Defined.

(** ** Bounds of the year slider *)

(** The slider bounds [min_year], [max_year] are the first and last year
    of the range as soon as the file has a data row; with no data row (or
    an empty range) [gdp_df] is empty and [int(nan)] raises
    [ValueError]. *)
Theorem slider_bounds (raw : raw_csv) (lo hi : Z) (L : list long_row) :
  get_gdp_data_range raw lo hi = Ok L ->
  (data raw <> [] -> lo <= hi -> year_bounds L = Ok (lo, hi)) /\
  (data raw = [] \/ hi < lo -> year_bounds L = Err ValueError).
Proof.
  intros HL. apply get_gdp_data_range_Ok_inv in HL as [_ ->]. split.
  - intros Hd Hle.
    assert (Hyears : forall x, In x (map year (long_table (read_csv raw) (zrange lo hi))) ->
                               lo <= x <= hi).
    { intros x Hx. apply in_map_iff in Hx as [r [<- Hr]].
      apply in_long_table in Hr as [y [i [Hy [_ ->]]]]. apply in_zrange in Hy. exact Hy. }
    assert (Hn : (0 < nrows (read_csv raw))%nat).
    { cbn [nrows read_csv]. destruct (data raw); [congruence|simpl; lia]. }
    assert (Hlo : In lo (map year (long_table (read_csv raw) (zrange lo hi)))).
    { apply in_map_iff. exists (long_row_at (read_csv raw) lo 0). split; [reflexivity|].
      apply in_long_table. exists lo, 0%nat. split; [apply in_zrange; lia|]. split; [exact Hn|reflexivity]. }
    assert (Hhi : In hi (map year (long_table (read_csv raw) (zrange lo hi)))).
    { apply in_map_iff. exists (long_row_at (read_csv raw) hi 0). split; [reflexivity|].
      apply in_long_table. exists hi, 0%nat. split; [apply in_zrange; lia|]. split; [exact Hn|reflexivity]. }
    unfold year_bounds, series_min, series_max.
    destruct (map year (long_table (read_csv raw) (zrange lo hi))) as [|y ys] eqn:E;
    [destruct Hlo|].
    cbn [bind].
    destruct (fold_min_spec ys y) as [Hmin_in Hmin_le].
    destruct (fold_max_spec ys y) as [Hmax_in Hmax_le].
    specialize (Hyears _ Hmin_in) as H1. specialize (Hmin_le _ Hlo) as H2.
    assert (Hyears' : forall x, In x (y :: ys) -> lo <= x <= hi) by exact Hyears.
    specialize (Hyears' _ Hmax_in) as H3. specialize (Hmax_le _ Hhi) as H4.
    f_equal. f_equal; lia.
  - intros Hcase. assert (HL : long_table (read_csv raw) (zrange lo hi) = []).
    { destruct Hcase as [Hd|Hlt].
      - apply length_zero_iff_nil. rewrite length_long_table. cbn [nrows read_csv].
        rewrite Hd. simpl. lia.
      - apply length_zero_iff_nil. rewrite length_long_table, length_zrange.
        replace (Z.to_nat (hi - lo + 1)) with 0%nat by lia. reflexivity. }
    rewrite HL. reflexivity.
Qed.

Lemma slider_bounds_witness :
  (data sample_raw <> [] -> 2020 <= 2021 ->
   year_bounds (long_table (read_csv sample_raw) (zrange 2020 2021)) = Ok (2020, 2021)) /\
  (data sample_raw = [] \/ 2021 < 2020 ->
   year_bounds (long_table (read_csv sample_raw) (zrange 2020 2021)) = Err ValueError).
Proof.
  apply (slider_bounds sample_raw 2020 2021). vm_compute. reflexivity.
Defined.

(** ** The country options *)

(** [Series.unique()] lists no two values that match each other (NaN
    matches NaN), takes its values from the series, and every value of the
    series matches one of them. *)
Theorem unique_options_distinct (l : list cell) :
  ForallOrdPairs (fun a b => cell_same a b = false) (unique l) /\
  (forall u, In u (unique l) -> In u l) /\
  (forall x, In x l -> exists u, In u (unique l) /\ cell_same x u = true).
Proof.
  unfold unique. destruct (unique_go_spec l []) as [H1 [_ [H3 H4]]].
  split; [exact H1|]. split; [exact H3|].
  intros x Hx. destruct (H4 x Hx) as [u [Hu Hxu]]. rewrite app_nil_r in Hu.
  exists u. split; assumption.
Qed.

(** The multiselect options [gdp_df['Country Code'].unique()] are the
    distinct codes of the file, in the order of the file's rows: the
    repetition of every code once per year does not change them. *)
Theorem country_options_are_file_codes (raw : raw_csv) (lo hi : Z) (L : list long_row) :
  get_gdp_data_range raw lo hi = Ok L ->
  lo <= hi ->
  countries L = unique (column (read_csv raw) "Country Code").
Proof.
  intros HL Hle. apply get_gdp_data_range_Ok_inv in HL as [Hcols ->].
  unfold countries, unique.
  rewrite codes_long_table
    by (apply read_csv_column_length, Hcols; right; left; reflexivity).
  destruct (zrange lo hi) as [|y ys] eqn:Hz.
  - exfalso. assert (Hin : In lo (zrange lo hi)) by (apply in_zrange; lia).
    rewrite Hz in Hin. exact Hin.
  - cbn [flat_map]. apply unique_go_absorb.
    intros c Hc. apply in_flat_map in Hc as [_ [_ Hc]].
    exists c. split; [apply in_or_app; left; exact Hc|apply cell_same_refl].
Qed.

Lemma country_options_are_file_codes_witness :
  countries (long_table (read_csv dup_raw) (zrange 2020 2021)) =
  unique (column (read_csv dup_raw) "Country Code").
Proof.
  apply (country_options_are_file_codes dup_raw 2020 2021).
  - vm_compute. reflexivity.
  - lia.
Defined.

(** ** The filtered frame and the chart *)

Lemma length_filter_map {A B} (p : B -> bool) (f : A -> B) (l : list A) :
  List.length (filter p (map f l)) = List.length (filter (fun x => p (f x)) l).
Proof.
  induction l as [|a l IH]; [reflexivity|]. simpl.
  destruct (p (f a)); simpl; rewrite IH; reflexivity.
Qed.

Lemma length_filtered_long_table (df : frame) (ys : list Z) (sel : list cell)
    (from_year to_year : Z) :
  List.length (column df "Country Code") = nrows df ->
  List.length (filtered_gdp_df (long_table df ys) sel from_year to_year) =
  (List.length (filter (fun c => isin c sel) (column df "Country Code")) *
   List.length (filter (fun y => Z.leb from_year y && Z.leb y to_year) ys))%nat.
Proof.
  intros Hlen. unfold filtered_gdp_df, long_table.
  set (k := List.length (filter (fun c => isin c sel) (column df "Country Code"))).
  assert (Hk : List.length (filter (fun i => isin (nth i (column df "Country Code") (CNum NaN)) sel)
                                   (seq 0 (nrows df))) = k).
  { unfold k. rewrite <- Hlen. rewrite <- (length_filter_map (fun c => isin c sel)).
    rewrite map_nth_seq_self. reflexivity. }
  induction ys as [|y ys IH]; [simpl; lia|].
  cbn [flat_map]. rewrite filter_app, length_app, IH, length_filter_map.
  assert (Hblock :
    List.length (filter (fun i => isin (country_code (long_row_at df y i)) sel &&
                                  Z.leb from_year (year (long_row_at df y i)) &&
                                  Z.leb (year (long_row_at df y i)) to_year)
                        (seq 0 (nrows df))) =
    if Z.leb from_year y && Z.leb y to_year then k else 0%nat).
  { unfold long_row_at. cbn [country_code year].
    destruct (Z.leb from_year y), (Z.leb y to_year); simpl.
    - rewrite <- Hk. f_equal. apply filter_ext. intros i. rewrite !andb_true_r. reflexivity.
    - rewrite filter_none; [reflexivity|]. intros i _. rewrite !andb_false_r. reflexivity.
    - rewrite filter_none; [reflexivity|]. intros i _. rewrite !andb_false_r. reflexivity.
    - rewrite filter_none; [reflexivity|]. intros i _. rewrite !andb_false_r. reflexivity. }
  rewrite Hblock. cbn [filter].
  destruct (Z.leb from_year y && Z.leb y to_year); simpl; lia.
Qed.



Lemma filter_nil_iff {A} (p : A -> bool) (l : list A) :
  filter p l = [] <-> forall x, In x l -> p x = false.
Proof.
  split; [|apply filter_none].
  intros H x Hx. destruct (p x) eqn:E; [|reflexivity]. exfalso.
  assert (Hin : In x (filter p l)) by (apply filter_In; split; assumption).
  rewrite H in Hin. exact Hin.
Qed.

(** The "No data available" warning replaces the chart exactly when no
    code of the file is among the selected ones, or no year of the range
    lies in [from_year, to_year]. *)
Theorem chart_warning_iff (raw : raw_csv) (lo hi : Z) (L : list long_row)
    (sel : list cell) (from_year to_year : Z) :
  get_gdp_data_range raw lo hi = Ok L ->
  gdp_chart (filtered_gdp_df L sel from_year to_year) = ChartWarning <->
  (forall c, In c (column (read_csv raw) "Country Code") -> isin c sel = false) \/
  (forall y, lo <= y <= hi -> ~ (from_year <= y <= to_year)).
Proof.
  intros HL. apply get_gdp_data_range_Ok_inv in HL as [Hcols ->].
  assert (Hlen := length_filtered_long_table (read_csv raw) (zrange lo hi) sel from_year to_year
                    (read_csv_column_length raw _ (Hcols _ (or_intror (or_introl eq_refl))))).
  assert (Hw : gdp_chart (filtered_gdp_df (long_table (read_csv raw) (zrange lo hi)) sel
                            from_year to_year) = ChartWarning <->
               List.length (filtered_gdp_df (long_table (read_csv raw) (zrange lo hi)) sel
                              from_year to_year) = 0%nat).
  { destruct (filtered_gdp_df _ _ _ _); simpl; split; (discriminate || reflexivity). }
  rewrite Hw, Hlen, Nat.mul_eq_0, !length_zero_iff_nil, !filter_nil_iff.
  assert (Hy : (forall y, In y (zrange lo hi) -> Z.leb from_year y && Z.leb y to_year = false)
               <-> (forall y, lo <= y <= hi -> ~ (from_year <= y <= to_year))).
  { split.
    - intros H y Hy [H1 H2]. specialize (H y (proj2 (in_zrange lo hi y) Hy)).
      apply Z.leb_le in H1. apply Z.leb_le in H2. rewrite H1, H2 in H. discriminate.
    - intros H y Hy. apply in_zrange in Hy. specialize (H y Hy).
      destruct (Z.leb_spec from_year y), (Z.leb_spec y to_year); try reflexivity.
      exfalso. apply H. split; assumption. }
  rewrite Hy. reflexivity.
Qed.

Lemma chart_warning_iff_witness :
  gdp_chart (filtered_gdp_df (long_table (read_csv sample_raw) (zrange 2020 2021))
               [CStr "FRA"] 2022 2030) = ChartWarning <->
  (forall c, In c (column (read_csv sample_raw) "Country Code") -> isin c [CStr "FRA"] = false) \/
  (forall y, 2020 <= y <= 2021 -> ~ (2022 <= y <= 2030)).
Proof.
  apply (chart_warning_iff sample_raw 2020 2021). vm_compute. reflexivity.
Defined.

(** ** The metrics loop *)

Lemma mapM_Err {A B} (f : A -> result B) (l : list A) (e : error) :
  mapM f l = Err e -> exists x, In x l /\ f x = Err e.
Proof.
  induction l as [|a l IH]; simpl; [discriminate|].
  destruct (f a) eqn:Ha; simpl.
  - destruct (mapM f l) eqn:Hm; simpl; [discriminate|].
    intros [= <-]. destruct (IH eq_refl) as [x [Hx Hf]]. exists x. split; [right|]; assumption.
  - intros [= <-]. exists a. split; [left; reflexivity|exact Ha].
Qed.


Lemma gdp_in_billions_err (df : list long_row) (c : cell) (e : error) :
  gdp_in_billions df c = Err e -> e = TypeError.
Proof.
  unfold gdp_in_billions. destruct (lookup_gdp df c) as [[x|s]|]; simpl;
  (discriminate || (intros [= <-]; reflexivity)).
Qed.

(** Once both values are in, the growth step cannot fail: the division is
    only reached with a start value that is neither NaN nor zero. *)
Lemma metric_for_ok (f l : list long_row) (c : cell) (a b : num) :
  gdp_in_billions f c = Ok a -> gdp_in_billions l c = Ok b ->
  exists m, metric_for f l c = Ok m.
Proof.
  intros Ha Hb. unfold metric_for. rewrite Ha, Hb. cbn [bind].
  destruct (isnan a || num_eq_zero a) eqn:E; [eexists; reflexivity|].
  apply orb_false_iff in E as [_ E]. unfold num_div. rewrite E.
  eexists; reflexivity.
Qed.

Lemma lookup_gdp_from (df : list long_row) (c x : cell) :
  lookup_gdp df c = Some x -> exists r, In r df /\ x = gdp r.
Proof.
  unfold lookup_gdp, iat0.
  destruct (filter (fun r => cell_eq (country_code r) c) df) as [|r rs] eqn:Hf;
  [discriminate|]. simpl. intros [= <-]. exists r. split; [|reflexivity].
  assert (Hin : In r (filter (fun r => cell_eq (country_code r) c) df))
    by (rewrite Hf; left; reflexivity).
  apply filter_In in Hin as [Hin _]. exact Hin.
Qed.

(** The metrics loop never raises [ZeroDivisionError] (nor anything but
    [TypeError], which only a string GDP cell causes). *)
Theorem metrics_only_type_error (L : list long_row) (sel : list cell) (a b : Z)
    (e : error) :
  compute_metrics L sel a b = Err e -> e = TypeError.
Proof.
  unfold compute_metrics. intros H. apply mapM_Err in H as [c [_ Hc]].
  unfold metric_for in Hc.
  destruct (gdp_in_billions (year_df L a) c) as [x|e1] eqn:Hx; cbn [bind] in Hc;
  [|injection Hc as <-; exact (gdp_in_billions_err _ _ _ Hx)].
  destruct (gdp_in_billions (year_df L b) c) as [y|e2] eqn:Hy; cbn [bind] in Hc;
  [|injection Hc as <-; exact (gdp_in_billions_err _ _ _ Hy)].
  destruct (metric_for_ok (year_df L a) (year_df L b) c x y Hx Hy) as [m Hm].
  unfold metric_for in Hm. rewrite Hx, Hy in Hm. cbn [bind] in Hm.
  rewrite Hm in Hc. discriminate.
Qed.

Lemma metrics_only_type_error_witness :
  compute_metrics [{| country_name := CStr "France"; country_code := CStr "FRA";
                      year := 2020; gdp := CStr "12.5" |}] [CStr "FRA"] 2020 2020
  = Err TypeError /\ TypeError = TypeError.
Proof.
  split; [vm_compute; reflexivity|].
  refine (metrics_only_type_error
            [{| country_name := CStr "France"; country_code := CStr "FRA";
                year := 2020; gdp := CStr "12.5" |}] [CStr "FRA"] 2020 2020 TypeError _).
  vm_compute. reflexivity.
Defined.

Lemma mapM_total {A B} (f : A -> result B) (l : list A) :
  (forall x, In x l -> exists y, f x = Ok y) -> exists l', mapM f l = Ok l'.
Proof.
  induction l as [|a l IH]; intros H; simpl; [exists []; reflexivity|].
  destruct (H a (or_introl eq_refl)) as [b Hb]. rewrite Hb. cbn [bind].
  destruct IH as [l' Hl']; [intros x Hx; apply H; right; exact Hx|].
  rewrite Hl'. exists (b :: l'). reflexivity.
Qed.

Lemma gdp_in_billions_num (df : list long_row) (c : cell) :
  (forall r, In r df -> exists v, gdp r = CNum v) ->
  exists x, gdp_in_billions df c = Ok x.
Proof.
  intros H. unfold gdp_in_billions.
  destruct (lookup_gdp df c) as [g|] eqn:Hg; [|exists NaN; reflexivity].
  destruct (lookup_gdp_from df c g Hg) as [r [Hr ->]].
  destruct (H r Hr) as [v ->]; eexists; reflexivity.
Qed.

(** Every year column of the file read as float64 (numbers and NA markers
    only): the metrics loop then raises nothing, for any selection and any
    pair of slider years. *)
Theorem metrics_total_on_numeric_columns (raw : raw_csv) (lo hi : Z)
    (L : list long_row) :
  get_gdp_data_range raw lo hi = Ok L ->
  (forall y, lo <= y <= hi ->
     forall x, In x (column (read_csv raw) (str_Z y)) -> exists v, x = CNum v) ->
  forall sel a b, exists ms, compute_metrics L sel a b = Ok ms.
Proof.
  intros HL Hnum sel a b.
  apply get_gdp_data_range_Ok_inv in HL as [_ ->].
  assert (Hg : forall r, In r (long_table (read_csv raw) (zrange lo hi)) ->
                         exists v, gdp r = CNum v).
  { intros r Hr. apply in_long_table in Hr as [y [i [Hy [_ ->]]]].
    apply in_zrange in Hy. cbn [gdp long_row_at].
    destruct (nth_in_or_default i (column (read_csv raw) (str_Z y)) (CNum NaN))
      as [Hin| Hd].
    - exact (Hnum y Hy _ Hin).
    - rewrite Hd. exists NaN. reflexivity. }
  unfold compute_metrics. apply mapM_total. intros c _.
  destruct (gdp_in_billions_num (year_df (long_table (read_csv raw) (zrange lo hi)) a) c)
    as [x Hx]; [intros r Hr; apply in_year_df in Hr as [Hr _]; exact (Hg r Hr)|].
  destruct (gdp_in_billions_num (year_df (long_table (read_csv raw) (zrange lo hi)) b) c)
    as [y Hy]; [intros r Hr; apply in_year_df in Hr as [Hr _]; exact (Hg r Hr)|].
  exact (metric_for_ok _ _ c x y Hx Hy).
Qed.

Lemma metrics_total_on_numeric_columns_witness :
  exists ms,
    compute_metrics (long_table (read_csv sample_raw) (zrange 2020 2021))
      [CStr "DEU"; CStr "FRA"] 2020 2021 = Ok ms.
Proof.
  refine (metrics_total_on_numeric_columns sample_raw 2020 2021
            (long_table (read_csv sample_raw) (zrange 2020 2021)) _ _
            [CStr "DEU"; CStr "FRA"] 2020 2021).
  - vm_compute. reflexivity.
  - intros y Hy. assert (Hy' : y = 2020 \/ y = 2021) by lia.
    destruct Hy' as [->| ->]; vm_compute; intros x Hx;
      repeat destruct Hx as [<-|Hx]; try contradiction; eexists; reflexivity.
Defined.




Lemma lookup_gdp_none (df : list long_row) (c : cell) :
  (forall r, In r df -> cell_eq (country_code r) c = false) ->
  lookup_gdp df c = None.
Proof.
  intros H. unfold lookup_gdp. rewrite (filter_none _ _ H). reflexivity.
Qed.

(** A selected code that matches no row of the table (the [IndexError]
    fallback in both years) is shown with both values and the growth as
    ['n/a'], and raises nothing. *)
Theorem unknown_country_all_na (L : list long_row) (c : cell) (a b : Z) :
  (forall r, In r L -> cell_eq (country_code r) c = false) ->
  compute_metrics L [c] a b =
  Ok [{| m_country := c; m_first := NaN; m_last := NaN;
         m_value := None; m_growth := GrowthNA |}].
Proof.
  intros H.
  assert (Hy : forall y, lookup_gdp (year_df L y) c = None).
  { intros y. apply lookup_gdp_none. intros r Hr.
    apply in_year_df in Hr as [Hr _]. exact (H r Hr). }
  unfold compute_metrics. cbn [mapM]. unfold metric_for, gdp_in_billions.
  rewrite (Hy a), (Hy b). reflexivity.
Qed.

Lemma unknown_country_all_na_witness :
  compute_metrics (long_table (read_csv sample_raw) (zrange 2020 2021))
    [CStr "ITA"] 2020 2021 =
  Ok [{| m_country := CStr "ITA"; m_first := NaN; m_last := NaN;
         m_value := None; m_growth := GrowthNA |}].
Proof.
  apply (unknown_country_all_na (long_table (read_csv sample_raw) (zrange 2020 2021))
           (CStr "ITA") 2020 2021).
  intros r Hr. vm_compute in Hr.
  repeat destruct Hr as [<-|Hr]; try contradiction; vm_compute; reflexivity.
Defined.


(** ** Columns the script does not use *)

Lemma select_ext (df1 df2 : frame) (names : list string) :
  nrows df1 = nrows df2 ->
  (forall c, In c names -> lookup_col (columns df1) c = lookup_col (columns df2) c) ->
  select df1 names = select df2 names.
Proof.
  intros Hn H. unfold select, column, has_col.
  rewrite (filter_ext_in _ (fun n => negb match lookup_col (columns df2) n with
                                            | Some _ => true | None => false end)
             names) by (intros c Hc; rewrite (H c Hc); reflexivity).
  destruct (filter _ names); [|reflexivity].
  rewrite Hn. f_equal. f_equal.
  apply map_ext_in. intros c Hc. rewrite (H c Hc). reflexivity.
Qed.

Lemma lookup_col_snoc (h : list string) (k : nat) (n c : string)
    (F F' : nat -> list cell) :
  (forall j, (j < k + List.length h)%nat -> F' j = F j) -> c <> n ->
  lookup_col (map (fun '(j, name) => (name, F' j))
                  (combine (seq k (List.length (h ++ [n])%list)) (h ++ [n])%list)) c =
  lookup_col (map (fun '(j, name) => (name, F j))
                  (combine (seq k (List.length h)) h)) c.
Proof.
  revert k. induction h as [|a h IH]; intros k HF Hc.
  - simpl. destruct (String.eqb n c) eqn:E; [|reflexivity].
    apply String.eqb_eq in E. congruence.
  - cbn [List.length app seq combine map lookup_col].
    rewrite (HF k) by (simpl; lia).
    destruct (String.eqb a c); [reflexivity|].
    apply IH; [|exact Hc]. intros j Hj. apply HF. simpl. lia.
Qed.

(** A column appended to the file (a header [n] that is none of the columns
    the script selects, and one more field on every full-length row) leaves
    [gdp_df], or the error raised, unchanged. *)
Theorem appended_column_ignored (raw : raw_csv) (lo hi : Z) (n : string)
    (f : list token -> token) :
  ~ In n (required_columns lo hi) ->
  Forall (fun row => List.length row = List.length (header raw)) (data raw) ->
  get_gdp_data_range {| header := (header raw ++ [n])%list;
                        data := map (fun row => (row ++ [f row])%list) (data raw) |} lo hi =
  get_gdp_data_range raw lo hi.
Proof.
  intros Hn Hrows. unfold get_gdp_data_range.
  rewrite (select_ext _ (read_csv raw)); [reflexivity| |].
  - unfold read_csv. cbn [nrows data]. apply length_map.
  - intros c Hc. unfold read_csv. cbn [columns header data].
    apply (lookup_col_snoc (header raw) 0 n c
             (fun j => parse_column (map (field j) (data raw)))
             (fun j => parse_column (map (field j)
                         (map (fun row => (row ++ [f row])%list) (data raw))))).
    + intros j Hj. simpl in Hj. f_equal. rewrite map_map.
      apply map_ext_in. intros row Hrow. unfold field.
      rewrite Forall_forall in Hrows. apply app_nth1. rewrite (Hrows row Hrow). exact Hj.
    + intros ->. exact (Hn Hc).
Qed.

Lemma appended_column_ignored_witness :
  get_gdp_data_range {| header := (header sample_raw ++ ["Unit"])%list;
                        data := map (fun row => (row ++ [TokText "USD"])%list) (data sample_raw) |}
    2020 2021 =
  get_gdp_data_range sample_raw 2020 2021.
Proof.
  apply (appended_column_ignored sample_raw 2020 2021 "Unit" (fun _ => TokText "USD")).
  - intros H. vm_compute in H. repeat (destruct H as [H|H]; [discriminate|]). exact H.
  - repeat constructor.
Defined.
